(** * Black-Scholes-Merton Monte Carlo notebook: model and properties

    A shallow embedding of the executable cells of
    [finance/python-black-scholes-merton.ipynb] (Python 2 with NumPy):

    - cell 2, the scalar [bsm] built on [math.exp] and [math.sqrt];
    - cell 4, the vectorised [bsm] built on [np.exp] and [np.sqrt];
    - cell 12, the option-price estimate: [np.maximum], [sum(...)/n] and the
      discount factor [math.exp(-r * t)];
    - cell 8, the prices computed by [plot_histogram] under the sliders of
      [interact]; cell 10, the average of the simulated prices; cell 14,
      [sqrtRatio] and the Python 2 division it relies on.

    Numbers.  A Python float / NumPy float64 is modelled as a real number or
    the value nan ([float64] below), and the arithmetic on the real part is
    exact.  What the code can turn into an exception is kept:
    [math.sqrt] of a negative number ([ValueError]), a zero divisor
    ([ZeroDivisionError]), and a result beyond the range of a double in the
    operations that report it, [**], [math.exp] and the conversion of an
    integer to a float ([OverflowError]).  nan is kept because [np.sqrt]
    produces it from a negative number.  The rounding of results, and with it
    the silent overflow to inf and underflow to 0.0 of the operations that
    raise nothing ([+], [-], [*], [/], [np.exp]), is outside the model: the
    statements below relate the results of the code to the formulas it
    evaluates, compare results by [<=], or describe which exception is
    raised. *)

From Stdlib Require Import Reals Lra List Arith ZArith Lia.
Import ListNotations.

Open Scope R_scope.

(** ** Values *)

Inductive float64 : Type :=
| Fin (x : R)
| NaN.

Definition lift1 (f : R -> R) (a : float64) : float64 :=
  match a with
  | Fin x => Fin (f x)
  | NaN => NaN
  end.

Definition lift2 (f : R -> R -> R) (a b : float64) : float64 :=
  match a, b with
  | Fin x, Fin y => Fin (f x y)
  | _, _ => NaN
  end.

Definition f_add : float64 -> float64 -> float64 := lift2 Rplus.
Definition f_sub : float64 -> float64 -> float64 := lift2 Rminus.
Definition f_mul : float64 -> float64 -> float64 := lift2 Rmult.
Definition f_neg : float64 -> float64 := lift1 Ropp.

(** [x / n] for a float [x] and a non-zero Python integer [n]. *)
Definition f_div_int (a : float64) (n : nat) : float64 :=
  lift1 (fun x => x / INR n) a.

(** ** Outcomes of a Python computation *)

(** [ValueError], [ZeroDivisionError] and [OverflowError] are the exceptions
    the modelled statements can raise.  [InvalidParameter] and [EmptyInput]
    are the error kinds of the specification's taxonomy; no statement of the
    notebook raises them. *)
Inductive exn : Type :=
| ValueError
| ZeroDivisionError
| OverflowError
| InvalidParameter
| EmptyInput.

Inductive outcome (A : Type) : Type :=
| Returns (a : A)
| Raises (e : exn).

Arguments Returns {A} a.
Arguments Raises {A} e.

Definition bind {A B : Type} (c : outcome A) (k : A -> outcome B) : outcome B :=
  match c with
  | Returns a => k a
  | Raises e => Raises e
  end.

Notation "x <- c ;; k" := (bind c (fun x => k))
  (at level 61, c at next level, right associativity).


(** ** The range of a double *)

(** The least integer that the conversion to a double rounds to infinity:
    [2^1024 - 2^970], half a unit in the last place above the largest double. *)
Definition int_overflow : Z := (2 ^ 1024 - 2 ^ 970)%Z.

(** The same bound as a real number: a result of this magnitude or more is
    out of range. *)
Definition overflow_threshold : R := IZR int_overflow.


(** The result [x] of an operation that reports a result out of range:
    [OverflowError] when [x] is out of range, the float [x] otherwise. *)
Definition checked (x : R) : outcome float64 :=
  if Rlt_dec (Rabs x) overflow_threshold then Returns (Fin x)
  else Raises OverflowError.

(** [a ** n] on a Python float [a], for a literal exponent [n]: Python gives
    [1.0] for the exponent 0 whatever the base, nan included, and raises
    [OverflowError] ("Numerical result out of range") when the power is out
    of range. *)
Definition f_pow (a : float64) (n : nat) : outcome float64 :=
  match n with
  | O => Returns (Fin 1)
  | S _ =>
      match a with
      | Fin x => checked (x ^ n)
      | NaN => Returns NaN
      end
  end.

(** ** The [math] module *)

(** [math.sqrt] raises [ValueError] ("math domain error") on a negative
    argument and maps nan to nan. *)
Definition math_sqrt (a : float64) : outcome float64 :=
  match a with
  | Fin x => if Rlt_dec x 0 then Raises ValueError else Returns (Fin (sqrt x))
  | NaN => Returns NaN
  end.

(** [math.exp] raises [OverflowError] ("math range error") when the
    exponential of its argument, a double, is out of range, and maps nan to
    nan. *)
Definition math_exp (a : float64) : outcome float64 :=
  match a with
  | Fin x => checked (exp x)
  | NaN => Returns NaN
  end.

(** ** NumPy *)

(** A NumPy operand: a scalar, or a one-dimensional array. *)
Inductive npval : Type :=
| Scalar (x : float64)
| Array (xs : list float64).

(** A universal function applied to an operand: to the scalar itself, or to
    every element of the array, producing a new array. *)
Definition np_map (f : float64 -> float64) (v : npval) : npval :=
  match v with
  | Scalar x => Scalar (f x)
  | Array xs => Array (map f xs)
  end.

(** [np.sqrt] of a Python scalar: nan (with a RuntimeWarning, no exception)
    on a negative argument. *)
Definition np_sqrt (a : float64) : float64 :=
  match a with
  | Fin x => if Rlt_dec x 0 then NaN else Fin (sqrt x)
  | NaN => NaN
  end.

(** [np.exp] raises nothing, whatever its argument: where [math.exp] raises
    [OverflowError], NumPy warns and returns inf, which the model, like any
    other rounding of a result, does not represent. *)
Definition np_exp : npval -> npval := np_map (lift1 exp).

(** Binary operators between a Python scalar and a NumPy operand: the scalar
    is broadcast over the operand. *)
Definition scalar_mul_np (a : float64) (v : npval) : npval := np_map (f_mul a) v.
Definition scalar_add_np (a : float64) (v : npval) : npval := np_map (f_add a) v.
Definition np_sub_scalar (v : npval) (k : float64) : npval :=
  np_map (fun x => f_sub x k) v.

(** [np.maximum(v, k)]: the elementwise maximum; nan propagates. *)
Definition np_maximum (v : npval) (k : float64) : npval :=
  np_map (fun x => lift2 Rmax x k) v.

(** The elements of an operand, in order. *)
Definition elements (v : npval) : list float64 :=
  match v with
  | Scalar x => [x]
  | Array xs => xs
  end.

(** The built-in [sum]: a left fold of [+] that starts from the integer 0. *)
Definition py_sum (xs : list float64) : float64 :=
  fold_left f_add xs (Fin 0).

(** ** Cell 2: the scalar pricing function

<<
def bsm(s_0, r, sigma, t, z):
    return s_0 * math.exp((r - 0.5 * sigma**2) * t + sigma * math.sqrt(t) * z)
>>
    The operands are evaluated from left to right: [sigma**2] first, then
    [math.sqrt(t)], then [math.exp]. *)
Module Cell2.

Definition bsm (s_0 r sigma t z : float64) : outcome float64 :=
  sq <- f_pow sigma 2 ;;
  q <- math_sqrt t ;;
  e <- math_exp
         (f_add (f_mul (f_sub r (f_mul (Fin 0.5) sq)) t)
                (f_mul (f_mul sigma q) z)) ;;
  Returns (f_mul s_0 e).

End Cell2.

(** ** Cell 4: the vectorised pricing function

<<
def bsm(s_0, r, sigma, t, z):
    return s_0 * np.exp((r - 0.5 * sigma**2) * t + sigma * np.sqrt(t) * z)
>>
    [z] is a NumPy operand; every operator that meets it is broadcast, so the
    body makes four passes over [z], each producing a new array.  [sigma] is
    a Python float: [sigma**2] is evaluated first, before any pass, and is
    the only operation of the body that can raise. *)
Module Cell4.

Definition bsm (s_0 r sigma t : float64) (z : npval) : outcome npval :=
  sq <- f_pow sigma 2 ;;
  Returns
    (scalar_mul_np s_0
       (np_exp
          (scalar_add_np (f_mul (f_sub r (f_mul (Fin 0.5) sq)) t)
                         (scalar_mul_np (f_mul sigma (np_sqrt t)) z)))).

End Cell4.

(** ** Cell 12: the option-price estimate

<<
stockPricesAtExpiry = bsm(100, r, 0.4, t, np.random.standard_normal(n))
strikePrice = 105
optionValuesAtExpiry = np.maximum(stockPricesAtExpiry - strikePrice, 0)
averageForwardOptionValue = sum(optionValuesAtExpiry)/n
presentOptionValue = averageForwardOptionValue * math.exp(-r * t)
>> *)

Definition stockPricesAtExpiry (s_0 r sigma t : float64) (z : list float64)
  : outcome npval :=
  Cell4.bsm s_0 r sigma t (Array z).

Definition optionValuesAtExpiry (stockPricesAtExpiry : npval)
    (strikePrice : float64) : npval :=
  np_maximum (np_sub_scalar stockPricesAtExpiry strikePrice) (Fin 0).

(** [n] is the number of draws the cell asked [standard_normal] for, hence the
    length of every array of the cell.  On an empty array [sum] returns the
    integer 0 and the integer division [0/0] raises [ZeroDivisionError];
    otherwise [sum] returns a float and [/] is the float division by [n]. *)
Definition averageForwardOptionValue (optionValuesAtExpiry : list float64)
  : outcome float64 :=
  let n := length optionValuesAtExpiry in
  match n with
  | O => Raises ZeroDivisionError
  | S _ => Returns (f_div_int (py_sum optionValuesAtExpiry) n)
  end.

Definition presentOptionValue (averageForwardOptionValue r t : float64)
  : outcome float64 :=
  discount <- math_exp (f_mul (f_neg r) t) ;;
  Returns (f_mul averageForwardOptionValue discount).

(** ** The three operations of the pipeline

    The specification's names for the three stages of cell 12. *)

Definition sampleTerminalPrices (S0 r sigma T : float64)
    (randomDraws : list float64) : outcome (list float64) :=
  prices <- stockPricesAtExpiry S0 r sigma T randomDraws ;;
  Returns (elements prices).

Definition evaluateCallPayoffs (terminalPrices : list float64)
    (strike : float64) : outcome (list float64) :=
  Returns (elements (optionValuesAtExpiry (Array terminalPrices) strike)).

Definition estimatePresentValue (payoffs : list float64) (r T : float64)
  : outcome float64 :=
  avg <- averageForwardOptionValue payoffs ;;
  presentOptionValue avg r T.

(** The composition of the last two stages on a fixed batch of prices. *)
Definition priceEstimate (terminalPrices : list float64)
    (strike r T : float64) : outcome float64 :=
  payoffs <- evaluateCallPayoffs terminalPrices strike ;;
  estimatePresentValue payoffs r T.

(** The exponent of the market model for one draw [z]:
    [(r - sigma^2/2) * T + sigma * sqrt(T) * z]. *)
Definition log_return (r sigma T z : R) : R :=
  (r - 0.5 * sigma ^ 2) * T + sigma * sqrt T * z.


(** The value the market model assigns to one draw [z]:
    [S0 * exp((r - sigma^2/2) * T + sigma * sqrt(T) * z)]. *)
Definition terminal_price (S0 r sigma T z : R) : R :=
  S0 * exp ((r - 0.5 * sigma ^ 2) * T + sigma * sqrt T * z).

(** The arithmetic mean of a sequence of reals: the sum of its elements
    divided by their number. *)
Definition mean (xs : list R) : R :=
  fold_right Rplus 0 xs / INR (length xs).

(** The call payoff of one terminal price. *)
Definition call_payoff (K S : R) : R := Rmax (S - K) 0.

(** ** Python 2 numbers and cell 14

<<
def sqrtRatio(x, y):
    return math.sqrt(x/y)
>> *)

(** An argument of a Python 2 arithmetic operator: an integer of arbitrary
    size, or a float. *)
Inductive pynum : Type :=
| PyInt (n : Z)
| PyFloat (x : float64).

(** The conversion to a float that [math] functions and mixed arithmetic
    apply to an integer: [OverflowError] ("long int too large to convert to
    float") when the integer rounds to infinity.  Integers up to [2^53] in
    magnitude are converted exactly; the rounding of larger ones is outside
    the model. *)
Definition to_float (v : pynum) : outcome float64 :=
  match v with
  | PyInt n =>
      if (Z.abs n <? int_overflow)%Z then Returns (Fin (IZR n))
      else Raises OverflowError
  | PyFloat x => Returns x
  end.

(** An integer too large to be converted to a float. *)
Definition too_large (v : pynum) : Prop :=
  match v with
  | PyInt n => (int_overflow <= Z.abs n)%Z
  | PyFloat _ => False
  end.

(** The Python 2 operator [/].  Between two integers it is the floor
    division, which raises [ZeroDivisionError] on a zero divisor.  As soon as
    one operand is a float it is the float division: both operands are
    converted, the left one first, then a zero divisor raises
    [ZeroDivisionError], whatever the dividend; a nan divisor gives nan. *)
Definition py2_div (x y : pynum) : outcome pynum :=
  match x, y with
  | PyInt a, PyInt b =>
      if (b =? 0)%Z then Raises ZeroDivisionError
      else Returns (PyInt (a / b)%Z)
  | _, _ =>
      xf <- to_float x ;;
      yf <- to_float y ;;
      match yf with
      | Fin d =>
          if Req_EM_T d 0 then Raises ZeroDivisionError
          else Returns (PyFloat (lift2 Rdiv xf (Fin d)))
      | NaN => Returns (PyFloat NaN)
      end
  end.

Definition sqrtRatio (x y : pynum) : outcome float64 :=
  q <- py2_div x y ;;
  qf <- to_float q ;;
  math_sqrt qf.

(** ** Cell 8: the prices behind the interactive histogram

<<
def plot_histogram( r, sigma, t):
    n = 1000
    prices = bsm(100, r, sigma, t, np.random.standard_normal(n))
    ...
interact(plot_histogram,  r=(0.0, 0.2, 0.01), sigma=(0.01, 1.0, 0.01), t=(0.01, 2, 0.01));
>>
    [z] stands for the [n = 1000] draws of [standard_normal]; the plotting
    statements that follow are not modelled. *)
Definition plot_histogram_prices (r sigma t : float64) (z : list float64)
  : outcome npval :=
  Cell4.bsm (Fin 100) r sigma t (Array z).

(** A slider [(lo, hi, step)] of [interact] only takes values between [lo]
    and [hi]. *)
Definition slider (lo hi x : R) : Prop := lo <= x <= hi.

(** ** Cell 10: the estimate of the expected stock price

<<
print sum(bsm(100, 0.03, 0.4, 3.0/12, np.random.standard_normal(n)))/n
>>
    [n] is the number of draws, the length of [z]; the division is the one of
    [averageForwardOptionValue]. *)
Definition averageStockPrice (s_0 r sigma t : float64) (z : list float64)
  : outcome float64 :=
  prices <- Cell4.bsm s_0 r sigma t (Array z) ;;
  let n := length z in
  match n with
  | O => Raises ZeroDivisionError
  | S _ => Returns (f_div_int (py_sum (elements prices)) n)
  end.


(** * Properties *)

(** ** The range of a double *)

Lemma overflow_threshold_gt_1 : 1 < overflow_threshold.
Proof.
  unfold overflow_threshold. apply (IZR_lt 1).
  apply Z.ltb_lt. vm_compute. reflexivity.
Qed.

Lemma overflow_threshold_le_pow : overflow_threshold <= 2 ^ 1024.
Proof.
  unfold overflow_threshold. rewrite pow_IZR. apply IZR_le.
  apply Z.leb_le. vm_compute. reflexivity.
Qed.

Lemma checked_in_range (x : R) :
  Rabs x < overflow_threshold -> checked x = Returns (Fin x).
Proof.
  intros Hx. unfold checked.
  destruct (Rlt_dec (Rabs x) overflow_threshold); [reflexivity | contradiction].
Qed.

Lemma checked_overflow (x : R) :
  overflow_threshold <= Rabs x -> checked x = Raises OverflowError.
Proof.
  intros Hx. unfold checked.
  destruct (Rlt_dec (Rabs x) overflow_threshold); [lra | reflexivity].
Qed.

Lemma Rabs_sqr (x : R) : Rabs (x ^ 2) = x ^ 2.
Proof.
  apply Rabs_pos_eq. apply pow2_ge_0.
Qed.

Lemma Rabs_exp (x : R) : Rabs (exp x) = exp x.
Proof.
  apply Rabs_pos_eq. left. apply exp_pos.
Qed.

Lemma f_pow_2_in_range (x : R) :
  x ^ 2 < overflow_threshold -> f_pow (Fin x) 2 = Returns (Fin (x ^ 2)).
Proof.
  intros Hx. unfold f_pow. apply checked_in_range. now rewrite Rabs_sqr.
Qed.

Lemma f_pow_2_overflow (x : R) :
  overflow_threshold <= x ^ 2 -> f_pow (Fin x) 2 = Raises OverflowError.
Proof.
  intros Hx. unfold f_pow. apply checked_overflow. now rewrite Rabs_sqr.
Qed.

Lemma math_exp_in_range (x : R) :
  exp x < overflow_threshold -> math_exp (Fin x) = Returns (Fin (exp x)).
Proof.
  intros Hx. unfold math_exp. apply checked_in_range. now rewrite Rabs_exp.
Qed.

Lemma math_exp_overflow (x : R) :
  overflow_threshold <= exp x -> math_exp (Fin x) = Raises OverflowError.
Proof.
  intros Hx. unfold math_exp. apply checked_overflow. now rewrite Rabs_exp.
Qed.




(** A non-positive exponent is inside it. *)
Lemma exp_in_range_nonpos (x : R) : x <= 0 -> exp x < overflow_threshold.
Proof.
  intros Hx. apply Rle_lt_trans with 1; [| apply overflow_threshold_gt_1].
  rewrite <- exp_0.
  destruct Hx as [Hx | ->]; [left; now apply exp_increasing | right; reflexivity].
Qed.

(** A volatility of [2^600] has a square out of range; one of magnitude at
    most 1 has not. *)
Lemma sqr_overflow_2_600 : overflow_threshold <= (2 ^ 600) ^ 2.
Proof.
  apply Rle_trans with (2 ^ 1024); [apply overflow_threshold_le_pow |].
  rewrite <- pow_mult. apply Rle_pow; [lra | lia].
Qed.

Lemma sqr_in_range_unit (x : R) : -1 <= x <= 1 -> x ^ 2 < overflow_threshold.
Proof.
  intros Hx. apply Rle_lt_trans with 1; [nra | apply overflow_threshold_gt_1].
Qed.


(** ** Arithmetic and list helpers *)

Lemma np_sqrt_nonneg (x : R) : 0 <= x -> np_sqrt (Fin x) = Fin (sqrt x).
Proof.
  intros Hx. unfold np_sqrt.
  destruct (Rlt_dec x 0) as [Hneg | _]; [lra | reflexivity].
Qed.

Lemma np_sqrt_neg (x : R) : x < 0 -> np_sqrt (Fin x) = NaN.
Proof.
  intros Hx. unfold np_sqrt.
  destruct (Rlt_dec x 0) as [_ | Hpos]; [reflexivity | lra].
Qed.

Lemma math_sqrt_nonneg (x : R) :
  0 <= x -> math_sqrt (Fin x) = Returns (Fin (sqrt x)).
Proof.
  intros Hx. unfold math_sqrt.
  destruct (Rlt_dec x 0) as [Hneg | _]; [lra | reflexivity].
Qed.

Lemma math_sqrt_neg (x : R) : x < 0 -> math_sqrt (Fin x) = Raises ValueError.
Proof.
  intros Hx. unfold math_sqrt.
  destruct (Rlt_dec x 0) as [_ | Hpos]; [reflexivity | lra].
Qed.

Lemma nth_map_Fin (g : R -> R) (Z : list R) (i : nat) :
  (i < length Z)%nat ->
  nth i (map (fun z => Fin (g z)) Z) NaN = Fin (g (nth i Z 0)).
Proof.
  revert i. induction Z as [| z Z IH]; intros i Hi; simpl in *.
  - lia.
  - destruct i as [| i]; [reflexivity | apply IH; lia].
Qed.

Lemma nth_map_const {A : Type} (c : float64) (Z : list A) (i : nat) :
  (i < length Z)%nat -> nth i (map (fun _ => c) Z) (Fin 0) = c.
Proof.
  revert i. induction Z as [| z Z IH]; intros i Hi; simpl in *.
  - lia.
  - destruct i as [| i]; [reflexivity | apply IH; lia].
Qed.

Lemma map_const_repeat {A B : Type} (c : B) (l : list A) :
  map (fun _ => c) l = repeat c (length l).
Proof.
  induction l as [| a l IH]; simpl; [reflexivity | now rewrite IH].
Qed.

Lemma terminal_price_no_volatility (S0 r T z : R) :
  terminal_price S0 r 0 T z = S0 * exp (r * T).
Proof.
  unfold terminal_price. do 2 f_equal. lra.
Qed.

(** ** The pricing function, step by step *)

(** When [sigma**2] is out of range, both definitions of [bsm] stop there,
    whatever the other arguments. *)
Lemma math_bsm_sigma_overflow (s_0 r t z : float64) (sigma : R) :
  overflow_threshold <= sigma ^ 2 ->
  Cell2.bsm s_0 r (Fin sigma) t z = Raises OverflowError.
Proof.
  intros Hs. unfold Cell2.bsm. now rewrite f_pow_2_overflow.
Qed.

Lemma bsm_sigma_overflow (s_0 r t : float64) (sigma : R) (z : npval) :
  overflow_threshold <= sigma ^ 2 ->
  Cell4.bsm s_0 r (Fin sigma) t z = Raises OverflowError.
Proof.
  intros Hs. unfold Cell4.bsm. now rewrite f_pow_2_overflow.
Qed.

(** Otherwise the four broadcast passes of cell 4 fuse into one map of the
    market model's formula, as soon as [np.sqrt] is applied inside its
    domain. *)
Lemma bsm_array_real (S0 r sigma T : R) (Z : list R) :
  0 <= T -> sigma ^ 2 < overflow_threshold ->
  Cell4.bsm (Fin S0) (Fin r) (Fin sigma) (Fin T) (Array (map Fin Z))
  = Returns (Array (map (fun z => Fin (terminal_price S0 r sigma T z)) Z)).
Proof.
  intros HT Hs. unfold Cell4.bsm. rewrite (f_pow_2_in_range sigma Hs).
  unfold bind, scalar_mul_np, np_exp, scalar_add_np.
  rewrite (np_sqrt_nonneg T HT). unfold np_map. do 2 f_equal.
  rewrite !map_map. apply map_ext. intros z. reflexivity.
Qed.

(** Outside that domain every element of the result is nan. *)
Lemma bsm_array_nan (S0 r sigma T : R) (Z : list R) :
  T < 0 -> sigma ^ 2 < overflow_threshold ->
  Cell4.bsm (Fin S0) (Fin r) (Fin sigma) (Fin T) (Array (map Fin Z))
  = Returns (Array (map (fun _ => NaN) Z)).
Proof.
  intros HT Hs. unfold Cell4.bsm. rewrite (f_pow_2_in_range sigma Hs).
  unfold bind, scalar_mul_np, np_exp, scalar_add_np.
  rewrite (np_sqrt_neg T HT). unfold np_map. do 2 f_equal.
  rewrite !map_map. apply map_ext. intros z. reflexivity.
Qed.


Lemma bsm_scalar_nan (S0 r sigma T z : R) :
  T < 0 -> sigma ^ 2 < overflow_threshold ->
  Cell4.bsm (Fin S0) (Fin r) (Fin sigma) (Fin T) (Scalar (Fin z))
  = Returns (Scalar NaN).
Proof.
  intros HT Hs. unfold Cell4.bsm. rewrite (f_pow_2_in_range sigma Hs).
  unfold bind. now rewrite (np_sqrt_neg T HT).
Qed.

Lemma math_bsm_real (S0 r sigma T z : R) :
  0 <= T -> sigma ^ 2 < overflow_threshold ->
  exp (log_return r sigma T z) < overflow_threshold ->
  Cell2.bsm (Fin S0) (Fin r) (Fin sigma) (Fin T) (Fin z)
  = Returns (Fin (terminal_price S0 r sigma T z)).
Proof.
  intros HT Hs He. unfold Cell2.bsm. rewrite (f_pow_2_in_range sigma Hs).
  unfold bind. rewrite (math_sqrt_nonneg T HT).
  change (f_add (f_mul (f_sub (Fin r) (f_mul (Fin 0.5) (Fin (sigma ^ 2))))
                   (Fin T))
            (f_mul (f_mul (Fin sigma) (Fin (sqrt T))) (Fin z)))
    with (Fin (log_return r sigma T z)).
  now rewrite (math_exp_in_range _ He).
Qed.

Lemma math_bsm_exp_overflow (S0 r sigma T z : R) :
  0 <= T -> sigma ^ 2 < overflow_threshold ->
  overflow_threshold <= exp (log_return r sigma T z) ->
  Cell2.bsm (Fin S0) (Fin r) (Fin sigma) (Fin T) (Fin z)
  = Raises OverflowError.
Proof.
  intros HT Hs He. unfold Cell2.bsm. rewrite (f_pow_2_in_range sigma Hs).
  unfold bind. rewrite (math_sqrt_nonneg T HT).
  change (f_add (f_mul (f_sub (Fin r) (f_mul (Fin 0.5) (Fin (sigma ^ 2))))
                   (Fin T))
            (f_mul (f_mul (Fin sigma) (Fin (sqrt T))) (Fin z)))
    with (Fin (log_return r sigma T z)).
  now rewrite (math_exp_overflow _ He).
Qed.

Lemma math_bsm_negative_time (S0 r sigma T z : R) :
  T < 0 -> sigma ^ 2 < overflow_threshold ->
  Cell2.bsm (Fin S0) (Fin r) (Fin sigma) (Fin T) (Fin z) = Raises ValueError.
Proof.
  intros HT Hs. unfold Cell2.bsm. rewrite (f_pow_2_in_range sigma Hs).
  unfold bind. now rewrite (math_sqrt_neg T HT).
Qed.

Lemma sampleTerminalPrices_real (S0 r sigma T : R) (Z : list R) :
  0 <= T -> sigma ^ 2 < overflow_threshold ->
  sampleTerminalPrices (Fin S0) (Fin r) (Fin sigma) (Fin T) (map Fin Z)
  = Returns (map (fun z => Fin (terminal_price S0 r sigma T z)) Z).
Proof.
  intros HT Hs. unfold sampleTerminalPrices, stockPricesAtExpiry.
  now rewrite (bsm_array_real S0 r sigma T Z HT Hs).
Qed.

Lemma sampleTerminalPrices_nan (S0 r sigma T : R) (Z : list R) :
  T < 0 -> sigma ^ 2 < overflow_threshold ->
  sampleTerminalPrices (Fin S0) (Fin r) (Fin sigma) (Fin T) (map Fin Z)
  = Returns (map (fun _ => NaN) Z).
Proof.
  intros HT Hs. unfold sampleTerminalPrices, stockPricesAtExpiry.
  now rewrite (bsm_array_nan S0 r sigma T Z HT Hs).
Qed.

Lemma sampleTerminalPrices_sigma_overflow
    (S0 r T : float64) (sigma : R) (Z : list float64) :
  overflow_threshold <= sigma ^ 2 ->
  sampleTerminalPrices S0 r (Fin sigma) T Z = Raises OverflowError.
Proof.
  intros Hs. unfold sampleTerminalPrices, stockPricesAtExpiry.
  now rewrite bsm_sigma_overflow.
Qed.

(** ** Terminal Price Sampler *)

(** A volatility whose square is out of the range of a double is not
    sampled: [sigma**2] raises [OverflowError]. *)
Lemma sampleTerminalPrices_volatility_out_of_range :
  0 < 100 /\ 0 < 0.25 /\ 0 <= 2 ^ 600
  /\ sampleTerminalPrices (Fin 100) (Fin 0.03) (Fin (2 ^ 600)) (Fin 0.25)
       (map Fin [0; 1])
     = Raises OverflowError.
Proof.
  split; [lra | split; [lra | split; [apply pow_le; lra |]]].
  apply sampleTerminalPrices_sigma_overflow. apply sqr_overflow_2_600.
Qed.

(** C1, as the code has it.  For parameters with [S0 > 0], [T > 0],
    [sigma >= 0] and every sequence [Z] of draws: when [sigma^2] is within
    the range of a double, [sampleTerminalPrices] returns a sequence [S] of
    the same length as [Z] whose [i]-th element is
    [S0 * exp((r - 0.5*sigma^2)*T + sigma*sqrt(T)*Z_i)]; when [sigma^2] is out
    of range it raises [OverflowError]. *)
Theorem sampleTerminalPrices_formula (S0 r sigma T : R) (Z : list R) :
  0 < S0 -> 0 < T -> 0 <= sigma ->
  (sigma ^ 2 < overflow_threshold ->
   exists S : list float64,
     sampleTerminalPrices (Fin S0) (Fin r) (Fin sigma) (Fin T) (map Fin Z)
     = Returns S
     /\ length S = length Z
     /\ forall i, (i < length Z)%nat ->
          nth i S NaN
          = Fin (S0 * exp ((r - 0.5 * sigma ^ 2) * T
                           + sigma * sqrt T * nth i Z 0)))
  /\ (overflow_threshold <= sigma ^ 2 ->
      sampleTerminalPrices (Fin S0) (Fin r) (Fin sigma) (Fin T) (map Fin Z)
      = Raises OverflowError).
Proof.
  intros _ HT _. split.
  - intros Hs.
    exists (map (fun z => Fin (terminal_price S0 r sigma T z)) Z).
    split; [apply sampleTerminalPrices_real; lra | split].
    + apply length_map.
    + intros i Hi. now rewrite nth_map_Fin.
  - apply sampleTerminalPrices_sigma_overflow.
Qed.

Lemma sampleTerminalPrices_formula_witness :
  (0.4 ^ 2 < overflow_threshold ->
   exists S : list float64,
     sampleTerminalPrices (Fin 100) (Fin 0.03) (Fin 0.4) (Fin 0.25)
       (map Fin [0; 1])
     = Returns S
     /\ length S = length [0; 1]
     /\ forall i, (i < length [0; 1])%nat ->
          nth i S NaN
          = Fin (100 * exp ((0.03 - 0.5 * 0.4 ^ 2) * 0.25
                            + 0.4 * sqrt 0.25 * nth i [0; 1] 0)))
  /\ (overflow_threshold <= 0.4 ^ 2 ->
      sampleTerminalPrices (Fin 100) (Fin 0.03) (Fin 0.4) (Fin 0.25)
        (map Fin [0; 1])
      = Raises OverflowError).
Proof.
  apply (sampleTerminalPrices_formula 100 0.03 0.4 0.25 [0; 1]); lra.
Defined.

(** C7.  With [sigma = 0] (and [S0 > 0], [T > 0]) the sampler succeeds and
    every output element equals [S0 * exp(r*T)], whatever the draws: any two
    draw sequences of the same length give the same output. *)
Theorem sampleTerminalPrices_zero_volatility (S0 r T : R) (Z : list R) :
  0 < S0 -> 0 < T ->
  exists S : list float64,
    sampleTerminalPrices (Fin S0) (Fin r) (Fin 0) (Fin T) (map Fin Z)
    = Returns S
    /\ length S = length Z
    /\ (forall i, (i < length Z)%nat -> nth i S NaN = Fin (S0 * exp (r * T)))
    /\ (forall Z' : list R, length Z' = length Z ->
          sampleTerminalPrices (Fin S0) (Fin r) (Fin 0) (Fin T) (map Fin Z')
          = Returns S).
Proof.
  intros _ HT.
  assert (H0 : 0 ^ 2 < overflow_threshold) by (apply sqr_in_range_unit; lra).
  assert (Hall : forall L : list R,
             sampleTerminalPrices (Fin S0) (Fin r) (Fin 0) (Fin T) (map Fin L)
             = Returns (repeat (Fin (S0 * exp (r * T))) (length L))).
  { intros L. rewrite sampleTerminalPrices_real by (lra || exact H0). f_equal.
    rewrite <- map_const_repeat. apply map_ext. intros z.
    now rewrite terminal_price_no_volatility. }
  exists (repeat (Fin (S0 * exp (r * T))) (length Z)).
  split; [apply Hall | split; [apply repeat_length | split]].
  - intros i Hi. apply nth_repeat_lt. exact Hi.
  - intros Z' Hlen. rewrite Hall. now rewrite Hlen.
Qed.

Lemma sampleTerminalPrices_zero_volatility_witness :
  exists S : list float64,
    sampleTerminalPrices (Fin 100) (Fin 0.03) (Fin 0) (Fin 0.25)
      (map Fin [0; 2])
    = Returns S
    /\ length S = length [0; 2]
    /\ (forall i, (i < length [0; 2])%nat ->
          nth i S NaN = Fin (100 * exp (0.03 * 0.25)))
    /\ (forall Z' : list R, length Z' = length [0; 2] ->
          sampleTerminalPrices (Fin 100) (Fin 0.03) (Fin 0) (Fin 0.25)
            (map Fin Z')
          = Returns S).
Proof.
  apply (sampleTerminalPrices_zero_volatility 100 0.03 0.25 [0; 2]); lra.
Defined.

(** On an empty batch [sigma**2] is still evaluated, before any pass over the
    array. *)
Lemma sampleTerminalPrices_empty_batch_overflow :
  0 < 0.25
  /\ sampleTerminalPrices (Fin 100) (Fin 0.03) (Fin (2 ^ 600)) (Fin 0.25)
       (map Fin [])
     = Raises OverflowError.
Proof.
  split; [lra |].
  apply sampleTerminalPrices_sigma_overflow. apply sqr_overflow_2_600.
Qed.

(** C10, as the code has it.  Applied to an empty draw sequence, for every
    [S0], [r] and [T > 0]: when [sigma^2] is within the range of a double the
    vectorised sampler succeeds and returns the empty sequence; when it is
    out of range the sampler raises [OverflowError]. *)
Theorem sampleTerminalPrices_empty_batch (S0 r sigma T : R) :
  0 < T ->
  (sigma ^ 2 < overflow_threshold ->
   sampleTerminalPrices (Fin S0) (Fin r) (Fin sigma) (Fin T) (map Fin [])
   = Returns [])
  /\ (overflow_threshold <= sigma ^ 2 ->
      sampleTerminalPrices (Fin S0) (Fin r) (Fin sigma) (Fin T) (map Fin [])
      = Raises OverflowError).
Proof.
  intros HT. split.
  - intros Hs. rewrite sampleTerminalPrices_real by (lra || exact Hs).
    reflexivity.
  - apply sampleTerminalPrices_sigma_overflow.
Qed.

Lemma sampleTerminalPrices_empty_batch_witness :
  (0.4 ^ 2 < overflow_threshold ->
   sampleTerminalPrices (Fin 100) (Fin 0.03) (Fin 0.4) (Fin 0.25) (map Fin [])
   = Returns [])
  /\ (overflow_threshold <= 0.4 ^ 2 ->
      sampleTerminalPrices (Fin 100) (Fin 0.03) (Fin 0.4) (Fin 0.25)
        (map Fin [])
      = Raises OverflowError).
Proof.
  apply (sampleTerminalPrices_empty_batch 100 0.03 0.4 0.25). lra.
Defined.

(** A negative spot price is not rejected: the sampler returns the (negative)
    value of the formula. *)
Lemma sampleTerminalPrices_accepts_negative_spot :
  -100 <= 0
  /\ sampleTerminalPrices (Fin (-100)) (Fin 0.03) (Fin 0.4) (Fin 0.25) [Fin 0]
     = Returns [Fin (terminal_price (-100) 0.03 0.4 0.25 0)]
  /\ sampleTerminalPrices (Fin (-100)) (Fin 0.03) (Fin 0.4) (Fin 0.25) [Fin 0]
     <> Raises InvalidParameter.
Proof.
  split; [lra |].
  assert (H : sampleTerminalPrices (Fin (-100)) (Fin 0.03) (Fin 0.4)
                (Fin 0.25) [Fin 0]
              = Returns [Fin (terminal_price (-100) 0.03 0.4 0.25 0)]).
  { apply (sampleTerminalPrices_real (-100) 0.03 0.4 0.25 [0]); [lra |].
    apply sqr_in_range_unit. lra. }
  split; [exact H | rewrite H; discriminate].
Qed.

(** C4, as the code has it.  The sampler validates nothing: [S0 <= 0],
    [T <= 0] and [sigma < 0] are not rejected, and [InvalidParameter] is
    never raised.  When [sigma^2] is within the range of a double it returns
    a sequence of the length of the draws, whose elements are the values of
    the formula for [T >= 0] and nan for [T < 0] (the result of [np.sqrt] on
    a negative number).  Its only exception is the [OverflowError] of
    [sigma**2] when [sigma^2] is out of range. *)
Theorem sampleTerminalPrices_no_validation (S0 r sigma T : R) (Z : list R) :
  S0 <= 0 \/ T <= 0 \/ sigma < 0 ->
  (sigma ^ 2 < overflow_threshold ->
   exists S : list float64,
     sampleTerminalPrices (Fin S0) (Fin r) (Fin sigma) (Fin T) (map Fin Z)
     = Returns S
     /\ length S = length Z
     /\ forall i, (i < length Z)%nat ->
          nth i S (Fin 0)
          = if Rlt_dec T 0 then NaN
            else Fin (S0 * exp ((r - 0.5 * sigma ^ 2) * T
                                + sigma * sqrt T * nth i Z 0)))
  /\ (overflow_threshold <= sigma ^ 2 ->
      sampleTerminalPrices (Fin S0) (Fin r) (Fin sigma) (Fin T) (map Fin Z)
      = Raises OverflowError)
  /\ sampleTerminalPrices (Fin S0) (Fin r) (Fin sigma) (Fin T) (map Fin Z)
     <> Raises InvalidParameter.
Proof.
  intros _.
  assert (Hin : sigma ^ 2 < overflow_threshold ->
            sampleTerminalPrices (Fin S0) (Fin r) (Fin sigma) (Fin T)
              (map Fin Z)
            = Returns
                (map (fun z => if Rlt_dec T 0 then NaN
                               else Fin (terminal_price S0 r sigma T z)) Z)).
  { intros Hs. destruct (Rlt_dec T 0) as [Hneg | Hpos].
    - now apply sampleTerminalPrices_nan.
    - apply sampleTerminalPrices_real; [lra | exact Hs]. }
  split; [| split].
  - intros Hs. eexists. split; [exact (Hin Hs) | split; [apply length_map |]].
    intros i Hi. destruct (Rlt_dec T 0) as [Hneg | Hpos].
    + now apply nth_map_const.
    + rewrite (nth_indep _ (Fin 0) NaN) by now rewrite length_map.
      now rewrite nth_map_Fin.
  - apply sampleTerminalPrices_sigma_overflow.
  - destruct (Rlt_dec (sigma ^ 2) overflow_threshold) as [Hs | Hs].
    + rewrite (Hin Hs). discriminate.
    + rewrite sampleTerminalPrices_sigma_overflow by lra. discriminate.
Qed.

Lemma sampleTerminalPrices_no_validation_witness :
  ((-0.4) ^ 2 < overflow_threshold ->
   exists S : list float64,
     sampleTerminalPrices (Fin (-100)) (Fin 0.03) (Fin (-0.4)) (Fin (-0.25))
       (map Fin [1])
     = Returns S
     /\ length S = length [1]
     /\ forall i, (i < length [1])%nat ->
          nth i S (Fin 0)
          = if Rlt_dec (-0.25) 0 then NaN
            else Fin (-100 * exp ((0.03 - 0.5 * (-0.4) ^ 2) * (-0.25)
                                  + (-0.4) * sqrt (-0.25) * nth i [1] 0)))
  /\ (overflow_threshold <= (-0.4) ^ 2 ->
      sampleTerminalPrices (Fin (-100)) (Fin 0.03) (Fin (-0.4)) (Fin (-0.25))
        (map Fin [1])
      = Raises OverflowError)
  /\ sampleTerminalPrices (Fin (-100)) (Fin 0.03) (Fin (-0.4)) (Fin (-0.25))
       (map Fin [1])
     <> Raises InvalidParameter.
Proof.
  apply (sampleTerminalPrices_no_validation (-100) 0.03 (-0.4) (-0.25) [1]).
  left. lra.
Defined.

(** ** Scalar and vectorised definitions *)




(** ** Payoff Evaluator *)

Lemma call_payoff_cases (K S : R) :
  0 <= call_payoff K S
  /\ (K < S -> call_payoff K S = S - K)
  /\ (S <= K -> call_payoff K S = 0).
Proof.
  unfold call_payoff. repeat split.
  - apply Rmax_r.
  - intros H. apply Rmax_left. lra.
  - intros H. apply Rmax_right. lra.
Qed.

(** The subtraction pass and the maximum pass of cell 12 fuse into one map of
    the call payoff. *)
Lemma evaluateCallPayoffs_real (prices : list R) (K : R) :
  evaluateCallPayoffs (map Fin prices) (Fin K)
  = Returns (map (fun s => Fin (call_payoff K s)) prices).
Proof.
  unfold evaluateCallPayoffs, optionValuesAtExpiry, np_maximum, np_sub_scalar.
  simpl. f_equal. rewrite !map_map. apply map_ext. intros s. reflexivity.
Qed.

(** C3.  For every terminal-price sequence and every strike [K > 0],
    [evaluateCallPayoffs] returns a sequence of the same length whose [i]-th
    element is [max(S_i - K, 0)]: it is [>= 0], it is [S_i - K] wherever
    [S_i > K], and 0 otherwise. *)
Theorem evaluateCallPayoffs_payoff (prices : list R) (K : R) :
  0 < K ->
  exists P : list float64,
    evaluateCallPayoffs (map Fin prices) (Fin K) = Returns P
    /\ length P = length prices
    /\ forall i, (i < length prices)%nat ->
         exists p : R,
           nth i P NaN = Fin p
           /\ p = Rmax (nth i prices 0 - K) 0
           /\ 0 <= p
           /\ (nth i prices 0 > K -> p = nth i prices 0 - K)
           /\ (nth i prices 0 <= K -> p = 0).
Proof.
  intros _. exists (map (fun s => Fin (call_payoff K s)) prices).
  split; [apply evaluateCallPayoffs_real | split; [apply length_map |]].
  intros i Hi. exists (call_payoff K (nth i prices 0)).
  split; [now rewrite nth_map_Fin | split; [reflexivity |]].
  destruct (call_payoff_cases K (nth i prices 0)) as (H0 & Hgt & Hle).
  repeat split; [exact H0 | intros H; apply Hgt; lra | exact Hle].
Qed.

Lemma evaluateCallPayoffs_payoff_witness :
  exists P : list float64,
    evaluateCallPayoffs (map Fin [100; 110]) (Fin 105) = Returns P
    /\ length P = length [100; 110]
    /\ forall i, (i < length [100; 110])%nat ->
         exists p : R,
           nth i P NaN = Fin p
           /\ p = Rmax (nth i [100; 110] 0 - 105) 0
           /\ 0 <= p
           /\ (nth i [100; 110] 0 > 105 -> p = nth i [100; 110] 0 - 105)
           /\ (nth i [100; 110] 0 <= 105 -> p = 0).
Proof.
  apply (evaluateCallPayoffs_payoff [100; 110] 105). lra.
Defined.

(** A strike of zero is not rejected: the payoffs are the prices themselves. *)
Lemma evaluateCallPayoffs_accepts_zero_strike :
  0 <= 0
  /\ evaluateCallPayoffs [Fin 100; Fin 110] (Fin 0)
     = Returns [Fin 100; Fin 110]
  /\ evaluateCallPayoffs [Fin 100; Fin 110] (Fin 0) <> Raises InvalidParameter.
Proof.
  split; [lra |].
  assert (H : evaluateCallPayoffs [Fin 100; Fin 110] (Fin 0)
              = Returns [Fin 100; Fin 110]).
  { change [Fin 100; Fin 110] with (map Fin [100; 110]).
    rewrite (evaluateCallPayoffs_real [100; 110] 0). simpl.
    unfold call_payoff. rewrite !Rmax_left by lra.
    replace (100 - 0) with 100 by lra. replace (110 - 0) with 110 by lra.
    reflexivity. }
  split; [exact H | rewrite H; discriminate].
Qed.

(** C6, as the code has it.  The evaluator has no error condition at all: for
    every strike, positive or not, and every terminal-price sequence it
    succeeds and returns the sequence of [max(S_i - K, 0)]. *)
Theorem evaluateCallPayoffs_total (prices : list R) (K : R) :
  evaluateCallPayoffs (map Fin prices) (Fin K)
  = Returns (map (fun s => Fin (Rmax (s - K) 0)) prices).
Proof.
  apply evaluateCallPayoffs_real.
Qed.

(** ** Present Value Estimator *)

Lemma fold_left_f_add (l : list R) (a : R) :
  fold_left f_add (map Fin l) (Fin a) = Fin (fold_left Rplus l a).
Proof.
  revert a. induction l as [| x l IH]; intros a; simpl.
  - reflexivity.
  - apply IH.
Qed.

Lemma fold_left_Rplus (l : list R) (a : R) :
  fold_left Rplus l a = a + fold_right Rplus 0 l.
Proof.
  revert a. induction l as [| x l IH]; intros a; simpl.
  - lra.
  - rewrite IH. lra.
Qed.

(** The built-in [sum] computes the sum of the sequence. *)
Lemma py_sum_real (l : list R) :
  py_sum (map Fin l) = Fin (fold_right Rplus 0 l).
Proof.
  unfold py_sum. rewrite fold_left_f_add, fold_left_Rplus. f_equal. lra.
Qed.

Lemma averageForwardOptionValue_real (l : list R) :
  l <> [] ->
  averageForwardOptionValue (map Fin l) = Returns (Fin (mean l)).
Proof.
  intros Hl. unfold averageForwardOptionValue. rewrite length_map.
  destruct l as [| x l]; [congruence |].
  cbv zeta. change (length (x :: l)) with (S (length l)). cbv iota beta.
  rewrite py_sum_real. reflexivity.
Qed.

Lemma averageForwardOptionValue_nil :
  averageForwardOptionValue [] = Raises ZeroDivisionError.
Proof. reflexivity. Qed.


(** The discount step: [math.exp(-r * t)] is evaluated after the mean. *)
Lemma presentOptionValue_in_range (avg : float64) (r T : R) :
  exp (- r * T) < overflow_threshold ->
  presentOptionValue avg (Fin r) (Fin T)
  = Returns (f_mul avg (Fin (exp (- r * T)))).
Proof.
  intros He. unfold presentOptionValue.
  change (f_mul (f_neg (Fin r)) (Fin T)) with (Fin (- r * T)).
  now rewrite (math_exp_in_range _ He).
Qed.


Lemma estimatePresentValue_real (payoffs : list R) (r T : R) :
  payoffs <> [] -> exp (- r * T) < overflow_threshold ->
  estimatePresentValue (map Fin payoffs) (Fin r) (Fin T)
  = Returns (Fin (exp (- r * T) * mean payoffs)).
Proof.
  intros Hl He. unfold estimatePresentValue.
  rewrite (averageForwardOptionValue_real payoffs Hl). unfold bind.
  rewrite presentOptionValue_in_range by exact He. simpl.
  do 2 f_equal. lra.
Qed.









(** ** Monotonicity in the strike *)




Lemma priceEstimate_real (prices : list R) (K r T : R) :
  prices <> [] -> exp (- r * T) < overflow_threshold ->
  priceEstimate (map Fin prices) (Fin K) (Fin r) (Fin T)
  = Returns (Fin (exp (- r * T) * mean (map (call_payoff K) prices))).
Proof.
  intros Hl He. unfold priceEstimate.
  rewrite evaluateCallPayoffs_real. unfold bind.
  rewrite <- (map_map (call_payoff K) Fin).
  apply estimatePresentValue_real; [| exact He].
  destruct prices; [congruence | discriminate].
Qed.





(** ** Concrete runs *)

(** A strike of 105 against the prices 100 and 110 pays 0 and 5. *)
Example evaluateCallPayoffs_105 :
  evaluateCallPayoffs [Fin 100; Fin 110] (Fin 105) = Returns [Fin 0; Fin 5].
Proof.
  change [Fin 100; Fin 110] with (map Fin [100; 110]).
  rewrite evaluateCallPayoffs_real. simpl. unfold call_payoff.
  rewrite Rmax_right by lra. rewrite Rmax_left by lra.
  replace (110 - 105) with 5 by lra. reflexivity.
Qed.

(** * Further properties of the notebook *)

(** ** Cell 8: the prices behind the histogram *)

(** X8.  Every position of the three sliders of [interact] keeps [t > 0] and
    [sigma**2] in range: the histogram is always drawn from 1000 strictly
    positive prices, never from nan. *)
Theorem plot_histogram_prices_positive (r sigma t : R) (Z : list R) :
  slider 0.0 0.2 r -> slider 0.01 1.0 sigma -> slider 0.01 2 t ->
  length Z = 1000%nat ->
  exists S : list R,
    plot_histogram_prices (Fin r) (Fin sigma) (Fin t) (map Fin Z)
    = Returns (Array (map Fin S))
    /\ length S = 1000%nat
    /\ Forall (fun p => 0 < p) S.
Proof.
  unfold slider. intros _ Hs Ht HZ.
  exists (map (terminal_price 100 r sigma t) Z). split; [| split].
  - unfold plot_histogram_prices.
    rewrite bsm_array_real by (lra || (apply sqr_in_range_unit; lra)).
    now rewrite map_map.
  - now rewrite length_map.
  - apply Forall_forall. intros p Hp.
    apply in_map_iff in Hp. destruct Hp as (z & <- & _).
    unfold terminal_price. apply Rmult_lt_0_compat; [lra | apply exp_pos].
Qed.

Lemma plot_histogram_prices_positive_witness :
  exists S : list R,
    plot_histogram_prices (Fin 0.1) (Fin 0.5) (Fin 1)
      (map Fin (repeat 0 1000))
    = Returns (Array (map Fin S))
    /\ length S = 1000%nat
    /\ Forall (fun p => 0 < p) S.
Proof.
  apply (plot_histogram_prices_positive 0.1 0.5 1 (repeat 0 1000));
    [unfold slider; lra | unfold slider; lra | unfold slider; lra
    | apply repeat_length].
Defined.

(** ** Means of real sequences *)

Lemma length_pos_INR {A : Type} (l : list A) : l <> [] -> 0 < INR (length l).
Proof.
  intros Hl. apply lt_0_INR. destruct l; [congruence | simpl; lia].
Qed.



Lemma sum_map_add_const (f : R -> R) (c : R) (l : list R) :
  fold_right Rplus 0 (map (fun x => f x + c) l)
  = fold_right Rplus 0 (map f l) + INR (length l) * c.
Proof.
  induction l as [| x l IH].
  - simpl. lra.
  - change (length (x :: l)) with (S (length l)). rewrite S_INR.
    simpl. rewrite IH. lra.
Qed.

Lemma mean_map_add_const (f : R -> R) (c : R) (l : list R) :
  l <> [] -> mean (map (fun x => f x + c) l) = mean (map f l) + c.
Proof.
  intros Hl. unfold mean. rewrite !length_map, sum_map_add_const.
  field. apply Rgt_not_eq. now apply length_pos_INR.
Qed.

Lemma mean_const (c : R) (l : list R) :
  l <> [] -> mean (map (fun _ => c) l) = c.
Proof.
  intros Hl.
  rewrite (map_ext (fun _ => c) (fun x => (fun _ => 0) x + c))
    by (intros; lra).
  rewrite mean_map_add_const by exact Hl.
  unfold mean. rewrite length_map.
  assert (H0 : fold_right Rplus 0 (map (fun _ : R => 0) l) = 0).
  { induction l as [| x l IH]; [reflexivity |].
    simpl. destruct l as [| y l]; [simpl; lra |].
    rewrite IH by discriminate. lra. }
  rewrite H0. unfold Rdiv. lra.
Qed.

Lemma fold_left_f_add_NaN (l : list float64) :
  fold_left f_add l NaN = NaN.
Proof.
  induction l as [| x l IH]; simpl; [reflexivity | exact IH].
Qed.

Lemma py_sum_NaN (l : list float64) (a : float64) :
  In NaN l -> fold_left f_add l a = NaN.
Proof.
  revert a. induction l as [| x l IH]; intros a Hin; simpl in *.
  - contradiction.
  - destruct Hin as [-> | Hin].
    + destruct a; simpl; apply fold_left_f_add_NaN.
    + now apply IH.
Qed.


(** ** Cell 14: [sqrtRatio] *)

Lemma to_float_int_in_range (n : Z) :
  (Z.abs n < int_overflow)%Z -> to_float (PyInt n) = Returns (Fin (IZR n)).
Proof.
  intros Hn. unfold to_float.
  destruct (Z.ltb_spec (Z.abs n) int_overflow); [reflexivity | lia].
Qed.

Lemma to_float_int_overflow (n : Z) :
  (int_overflow <= Z.abs n)%Z -> to_float (PyInt n) = Raises OverflowError.
Proof.
  intros Hn. unfold to_float.
  destruct (Z.ltb_spec (Z.abs n) int_overflow); [lia | reflexivity].
Qed.

Lemma int_overflow_pos : (0 < int_overflow)%Z.
Proof.
  apply Z.ltb_lt. vm_compute. reflexivity.
Qed.

Lemma two_53_lt_int_overflow : (2 ^ 53 < int_overflow)%Z.
Proof.
  apply Z.ltb_lt. vm_compute. reflexivity.
Qed.

(** The root stage, [math.sqrt] applied to the quotient, raises no
    [ZeroDivisionError]. *)
Lemma sqrt_stage_not_zero_division (q : pynum) :
  (qf <- to_float q ;; math_sqrt qf) <> Raises ZeroDivisionError.
Proof.
  destruct q as [n | [u |]]; unfold to_float, bind.
  - destruct (Z.abs n <? int_overflow)%Z; [| discriminate].
    unfold math_sqrt. destruct (Rlt_dec (IZR n) 0); discriminate.
  - unfold math_sqrt. destruct (Rlt_dec u 0); discriminate.
  - discriminate.
Qed.

Lemma sqrtRatio_int (a b : Z) :
  b <> 0%Z ->
  sqrtRatio (PyInt a) (PyInt b)
  = (qf <- to_float (PyInt (a / b)) ;; math_sqrt qf).
Proof.
  intros Hb. unfold sqrtRatio, py2_div.
  destruct (Z.eqb_spec b 0) as [H0 | _]; [contradiction | reflexivity].
Qed.

(** The float division stage, once both operands are converted. *)
Lemma float_div_stage (xf yf : float64) :
  (match yf with
   | Fin d =>
       if Req_EM_T d 0 then Raises ZeroDivisionError
       else Returns (PyFloat (lift2 Rdiv xf (Fin d)))
   | NaN => Returns (PyFloat NaN)
   end = Raises ZeroDivisionError)
  <-> yf = Fin 0.
Proof.
  destruct yf as [d |].
  - destruct (Req_EM_T d 0) as [-> | Hd]; split; try reflexivity.
    + discriminate.
    + intros H. injection H as H. contradiction.
  - split; discriminate.
Qed.

Lemma py2_div_zero_division (x y : pynum) :
  py2_div x y = Raises ZeroDivisionError
  <-> (y = PyInt 0 \/ (y = PyFloat (Fin 0) /\ ~ too_large x)).
Proof.
  destruct x as [a | fx], y as [b | fy]; unfold py2_div, too_large.
  - destruct (Z.eqb_spec b 0) as [-> | Hb].
    + split; [intros _; now left | reflexivity].
    + split; [discriminate |].
      intros [H | [H _]]; [injection H as H; contradiction | discriminate].
  - destruct (Z.ltb_spec (Z.abs a) int_overflow) as [Ha | Ha].
    + rewrite (to_float_int_in_range a Ha). unfold to_float, bind.
      rewrite (float_div_stage (Fin (IZR a)) fy). split.
      * intros ->. right. split; [reflexivity | lia].
      * intros [H | [H _]]; [discriminate | now injection H].
    + rewrite (to_float_int_overflow a Ha). unfold bind.
      split; [discriminate |].
      intros [H | [_ H]]; [discriminate | contradiction].
  - destruct (Z.ltb_spec (Z.abs b) int_overflow) as [Hb | Hb].
    + rewrite (to_float_int_in_range b Hb). unfold to_float, bind.
      rewrite (float_div_stage fx (Fin (IZR b))). split.
      * intros H. injection H as H. apply (eq_IZR b 0) in H. subst b. now left.
      * intros [H | [H _]]; [| discriminate].
        injection H as H. now subst b.
    + rewrite (to_float_int_overflow b Hb). unfold to_float, bind.
      split; [discriminate |].
      intros [H | [H _]]; [| discriminate].
      injection H as H. subst b. pose proof int_overflow_pos. simpl in Hb. lia.
  - unfold to_float, bind. rewrite (float_div_stage fx fy). split.
    + intros ->. right. split; [reflexivity | tauto].
    + intros [H | [H _]]; [discriminate | now injection H].
Qed.

(** X1.  [sqrtRatio] raises [ZeroDivisionError] exactly when its second
    argument is zero, the integer 0 or the float 0.0, except that an integer
    first argument too large for a float, divided by the float 0.0, raises
    [OverflowError] at its conversion instead. *)
Theorem sqrtRatio_zero_division (x y : pynum) :
  sqrtRatio x y = Raises ZeroDivisionError
  <-> (y = PyInt 0 \/ (y = PyFloat (Fin 0) /\ ~ too_large x)).
Proof.
  rewrite <- py2_div_zero_division. unfold sqrtRatio.
  destruct (py2_div x y) as [q | e]; unfold bind at 1.
  - split; [| discriminate].
    intros H. now apply sqrt_stage_not_zero_division in H.
  - split; intros H; injection H as ->; reflexivity.
Qed.

(** X2.  Between two integers [x >= 0] and [y > 0] the quotient is truncated
    before the root is taken: the result is the root of the floor quotient
    [q], the integer with [y*q <= x < y*(q+1)] ([sqrtRatio(9, 4)] is the root
    of 2).  A quotient too large for a float raises [OverflowError]. *)
Theorem sqrtRatio_int_truncates (a b : Z) :
  (0 <= a)%Z -> (0 < b)%Z ->
  exists q : Z,
    (b * q <= a < b * (q + 1))%Z
    /\ ((q <= 2 ^ 53)%Z ->
        sqrtRatio (PyInt a) (PyInt b) = Returns (Fin (sqrt (IZR q))))
    /\ ((int_overflow <= q)%Z ->
        sqrtRatio (PyInt a) (PyInt b) = Raises OverflowError).
Proof.
  intros Ha Hb. exists (a / b)%Z.
  assert (Hq : (0 <= a / b)%Z) by now apply Z.div_pos.
  split; [| split].
  - split; [now apply Z.mul_div_le |].
    rewrite Z.add_1_r. now apply Z.mul_succ_div_gt.
  - intros Hsmall. rewrite sqrtRatio_int by lia.
    pose proof two_53_lt_int_overflow.
    rewrite to_float_int_in_range by lia. unfold bind.
    apply math_sqrt_nonneg. now apply (IZR_le 0).
  - intros Hbig. rewrite sqrtRatio_int by lia.
    rewrite to_float_int_overflow by lia. reflexivity.
Qed.

Lemma sqrtRatio_int_truncates_witness :
  exists q : Z,
    (4 * q <= 9 < 4 * (q + 1))%Z
    /\ ((q <= 2 ^ 53)%Z ->
        sqrtRatio (PyInt 9) (PyInt 4) = Returns (Fin (sqrt (IZR q))))
    /\ ((int_overflow <= q)%Z ->
        sqrtRatio (PyInt 9) (PyInt 4) = Raises OverflowError).
Proof.
  apply (sqrtRatio_int_truncates 9 4); lia.
Defined.

(** X3.  Between two integers with [y <> 0], [sqrtRatio] raises
    [OverflowError] exactly when the floor quotient is too large for a float,
    and [ValueError] exactly when it is not and [x] and [y] have strictly
    opposite signs (the floor quotient is then negative). *)
Theorem sqrtRatio_int_errors (a b : Z) :
  b <> 0%Z ->
  (sqrtRatio (PyInt a) (PyInt b) = Raises ValueError
   <-> (((a < 0 < b)%Z \/ (b < 0 < a)%Z)
        /\ (Z.abs (a / b) < int_overflow)%Z))
  /\ (sqrtRatio (PyInt a) (PyInt b) = Raises OverflowError
      <-> (int_overflow <= Z.abs (a / b))%Z).
Proof.
  intros Hb. rewrite sqrtRatio_int by exact Hb.
  assert (Hsign : ((a / b < 0)%Z <-> ((a < 0 < b)%Z \/ (b < 0 < a)%Z))).
  { Z.to_euclidean_division_equations. nia. }
  rewrite <- Hsign.
  destruct (Z.ltb_spec (Z.abs (a / b)) int_overflow) as [Hin | Hout].
  - rewrite (to_float_int_in_range _ Hin). unfold bind, math_sqrt.
    destruct (Rlt_dec (IZR (a / b)) 0) as [Hneg | Hpos].
    + split; split.
      * intros _. split; [now apply (lt_IZR _ 0) | exact Hin].
      * reflexivity.
      * discriminate.
      * lia.
    + split; split.
      * discriminate.
      * intros [H _]. exfalso. apply Hpos. now apply (IZR_lt _ 0).
      * discriminate.
      * lia.
  - rewrite (to_float_int_overflow _ Hout). unfold bind. split; split.
    + discriminate.
    + intros [_ H]. lia.
    + intros _. exact Hout.
    + reflexivity.
Qed.

Lemma sqrtRatio_int_errors_witness :
  (sqrtRatio (PyInt (-1)) (PyInt 5) = Raises ValueError
   <-> (((-1 < 0 < 5)%Z \/ (5 < 0 < -1)%Z)
        /\ (Z.abs (-1 / 5) < int_overflow)%Z))
  /\ (sqrtRatio (PyInt (-1)) (PyInt 5) = Raises OverflowError
      <-> (int_overflow <= Z.abs (-1 / 5))%Z).
Proof.
  apply (sqrtRatio_int_errors (-1) 5). lia.
Defined.

(** X6.  An integer ratio that is a perfect square within the exact range of
    a float is recovered exactly: [sqrtRatio(k*k*y, y)] is [|k|] for every
    integer [y <> 0] and every [k] with [k*k <= 2^53]. *)
Theorem sqrtRatio_perfect_square (k y : Z) :
  y <> 0%Z -> (k * k <= 2 ^ 53)%Z ->
  sqrtRatio (PyInt (k * k * y)) (PyInt y) = Returns (Fin (IZR (Z.abs k))).
Proof.
  intros Hy Hk. rewrite sqrtRatio_int by exact Hy.
  rewrite Z.div_mul by exact Hy.
  pose proof two_53_lt_int_overflow.
  rewrite to_float_int_in_range by nia. unfold bind.
  rewrite <- Z.abs_square, mult_IZR.
  assert (Hk0 : 0 <= IZR (Z.abs k)) by (apply (IZR_le 0); lia).
  rewrite math_sqrt_nonneg by nra.
  now rewrite sqrt_square.
Qed.

Lemma sqrtRatio_perfect_square_witness :
  sqrtRatio (PyInt (-3 * -3 * 4)) (PyInt 4) = Returns (Fin (IZR (Z.abs (-3)))).
Proof.
  apply (sqrtRatio_perfect_square (-3) 4); [lia |].
  apply Z.leb_le. vm_compute. reflexivity.
Defined.

(** ** Cells 2 and 4 on a negative time to expiry *)

(** X11.  The two definitions of [bsm] part ways on a negative time to expiry.
    With [sigma^2] within the range of a double, the scalar one raises
    [ValueError], and does so only for [t < 0], while the vectorised one
    raises nothing and returns nan, for a scalar draw and for every element
    of a batch.  With [sigma^2] out of range both raise [OverflowError]
    before the root is taken. *)
Theorem bsm_negative_time_behaviour (S0 r sigma T : R) :
  (sigma ^ 2 < overflow_threshold ->
   (forall z : R,
      Cell2.bsm (Fin S0) (Fin r) (Fin sigma) (Fin T) (Fin z)
      = Raises ValueError
      <-> T < 0)
   /\ (T < 0 ->
       (forall z : R,
          Cell4.bsm (Fin S0) (Fin r) (Fin sigma) (Fin T) (Scalar (Fin z))
          = Returns (Scalar NaN))
       /\ (forall Z : list R,
             Cell4.bsm (Fin S0) (Fin r) (Fin sigma) (Fin T)
               (Array (map Fin Z))
             = Returns (Array (repeat NaN (length Z))))))
  /\ (overflow_threshold <= sigma ^ 2 ->
      forall z : R,
        Cell2.bsm (Fin S0) (Fin r) (Fin sigma) (Fin T) (Fin z)
        = Raises OverflowError
        /\ Cell4.bsm (Fin S0) (Fin r) (Fin sigma) (Fin T) (Scalar (Fin z))
           = Raises OverflowError).
Proof.
  split.
  - intros Hs. split.
    + intros z. destruct (Rlt_dec T 0) as [Hneg | Hpos]; split.
      * intros _. exact Hneg.
      * intros _. now apply math_bsm_negative_time.
      * destruct (Rlt_dec (exp (log_return r sigma T z)) overflow_threshold)
          as [Hin | Hout].
        -- rewrite math_bsm_real by (lra || assumption). discriminate.
        -- rewrite math_bsm_exp_overflow by (lra || assumption). discriminate.
      * intros H. contradiction.
    + intros HT. split.
      * intros z. now apply bsm_scalar_nan.
      * intros Z. rewrite bsm_array_nan by assumption.
        now rewrite map_const_repeat.
  - intros Hs z. split.
    + now apply math_bsm_sigma_overflow.
    + now apply bsm_sigma_overflow.
Qed.

(** ** Cell 10: the average of the simulated prices *)

Lemma averageStockPrice_values (S0 r sigma T : R) (Z : list R)
    (prices : list float64) :
  Cell4.bsm (Fin S0) (Fin r) (Fin sigma) (Fin T) (Array (map Fin Z))
  = Returns (Array prices) ->
  length prices = length Z ->
  averageStockPrice (Fin S0) (Fin r) (Fin sigma) (Fin T) (map Fin Z)
  = averageForwardOptionValue prices.
Proof.
  intros Hb Hlen. unfold averageStockPrice, averageForwardOptionValue.
  rewrite Hb. unfold bind, elements. now rewrite length_map, Hlen.
Qed.

(** X12.  [sum(bsm(...))/n] evaluates [bsm] first: with [sigma^2] out of the
    range of a double it raises [OverflowError], even on an empty batch.
    Otherwise an empty batch ([n = 0]) raises [ZeroDivisionError]; a
    non-empty one returns the arithmetic mean of the simulated prices for
    [T >= 0], and nan for [T < 0]. *)
Theorem averageStockPrice_behaviour (S0 r sigma T : R) (Z : list R) :
  (overflow_threshold <= sigma ^ 2 ->
   averageStockPrice (Fin S0) (Fin r) (Fin sigma) (Fin T) (map Fin Z)
   = Raises OverflowError)
  /\ (sigma ^ 2 < overflow_threshold ->
      (Z = [] ->
       averageStockPrice (Fin S0) (Fin r) (Fin sigma) (Fin T) (map Fin Z)
       = Raises ZeroDivisionError)
      /\ (Z <> [] -> 0 <= T ->
          averageStockPrice (Fin S0) (Fin r) (Fin sigma) (Fin T) (map Fin Z)
          = Returns (Fin (mean (map (terminal_price S0 r sigma T) Z))))
      /\ (Z <> [] -> T < 0 ->
          averageStockPrice (Fin S0) (Fin r) (Fin sigma) (Fin T) (map Fin Z)
          = Returns NaN)).
Proof.
  split.
  - intros Hs. unfold averageStockPrice. now rewrite bsm_sigma_overflow.
  - intros Hs. split; [| split].
    + intros ->. destruct (Rlt_dec T 0) as [Hneg | Hpos].
      * rewrite (averageStockPrice_values S0 r sigma T [] [])
          by (reflexivity || now apply (bsm_array_nan S0 r sigma T [])).
        reflexivity.
      * rewrite (averageStockPrice_values S0 r sigma T [] [])
          by (reflexivity
              || (apply (bsm_array_real S0 r sigma T []); (lra || assumption))).
        reflexivity.
    + intros HZ HT.
      rewrite (averageStockPrice_values S0 r sigma T Z
                 (map Fin (map (terminal_price S0 r sigma T) Z))).
      * apply averageForwardOptionValue_real.
        destruct Z; [congruence | discriminate].
      * rewrite map_map. now apply bsm_array_real.
      * now rewrite !length_map.
    + intros HZ HT.
      rewrite (averageStockPrice_values S0 r sigma T Z (map (fun _ => NaN) Z)).
      * destruct Z as [| z Z]; [congruence |].
        unfold averageForwardOptionValue. cbv zeta.
        change (length (map (fun _ : R => NaN) (z :: Z)))
          with (S (length (map (fun _ : R => NaN) Z))).
        cbv iota beta. unfold py_sum.
        rewrite (py_sum_NaN (map (fun _ : R => NaN) (z :: Z)) (Fin 0))
          by now left.
        reflexivity.
      * now apply bsm_array_nan.
      * now rewrite length_map.
Qed.

(** ** Cell 12: the option-price estimate *)




(** X17.  A non-empty batch whose prices all stay at or below the strike is
    worth exactly 0, whenever the discount factor is within the range of a
    double. *)
Theorem priceEstimate_out_of_the_money (prices : list R) (K r T : R) :
  prices <> [] -> Forall (fun s => s <= K) prices ->
  exp (- r * T) < overflow_threshold ->
  priceEstimate (map Fin prices) (Fin K) (Fin r) (Fin T) = Returns (Fin 0).
Proof.
  intros Hl Hout He. rewrite priceEstimate_real by assumption.
  do 2 f_equal.
  rewrite (map_ext_in (call_payoff K) (fun _ => 0)).
  - rewrite mean_const by exact Hl. lra.
  - intros s Hs. apply (call_payoff_cases K s).
    revert s Hs. now apply Forall_forall.
Qed.

Lemma priceEstimate_out_of_the_money_witness :
  priceEstimate (map Fin [100; 110]) (Fin 110) (Fin 0.03) (Fin 0.25)
  = Returns (Fin 0).
Proof.
  apply (priceEstimate_out_of_the_money [100; 110] 110 0.03 0.25).
  - discriminate.
  - repeat constructor; lra.
  - apply exp_in_range_nonpos. lra.
Defined.






